(** * The mock-aware fetch wrapper ([createFetcher]) and the query hooks

    A shallow embedding of [src/libs/createFetcher.ts], of the shared
    transport client ([src/libs/axios/apiClient.ts]) and of the demo
    service and hook layer ([src/datas/demo/services.ts], [hooks.ts]).

    JavaScript objects that the code treats as open records (the
    [FetcherOptions] literal, spread over [defaultOptions]) are finite
    maps from property names to values; parsed JSON bodies are values of
    an inductive type; the effects of one dispatch (cookie, location,
    modal registry, promise settlement, outbound call) are threaded
    through a small state-and-exception monad. *)

From Stdlib Require Import ZArith List Bool.
From stdpp Require Import base option gmap strings list fin_maps pretty.

Set Warnings "-register-all".

Local Open Scope string_scope.
Local Open Scope Z_scope.

(** ** JavaScript values *)

Module Js.

(** The values that can sit in an options object or in a parsed JSON
    body.  Numbers are the integers (statuses, delays, ids). *)
Inductive value : Type :=
| Undefined
| Null
| Bool (b : bool)
| Num (n : Z)
| Str (s : string)
| Arr (items : list value)
| Obj (fields : list (string * value)).

(** ToBoolean. *)
Definition truthy (v : value) : bool :=
  match v with
  | Undefined | Null => false
  | Bool b => b
  | Num n => negb (n =? 0)
  | Str s => negb (String.eqb s "")
  | Arr _ | Obj _ => true
  end.

(** [a || b] *)
Definition or (a b : value) : value := if truthy a then a else b.

(** [undefined] and [null], the values on which a property read throws. *)
Definition nullish (v : value) : bool :=
  match v with Undefined | Null => true | _ => false end.

(** [v === s] for a string literal [s]. *)
Definition strict_eq_str (v : value) (s : string) : bool :=
  match v with Str s' => String.eqb s' s | _ => false end.

Fixpoint assoc (k : string) (fields : list (string * value)) : value :=
  match fields with
  | [] => Undefined
  | (k', v) :: rest => if String.eqb k' k then v else assoc k rest
  end.

(** [v.k] for an own data property [k]: reading a property of
    [undefined] or [null] raises a TypeError ([None]); primitives and
    arrays have no own property of the names read here. *)
Definition get (v : value) (k : string) : option value :=
  match v with
  | Undefined | Null => None
  | Obj fields => Some (assoc k fields)
  | Bool _ | Num _ | Str _ | Arr _ => Some Undefined
  end.

Definition join (sep : string) (parts : list string) : string :=
  match parts with
  | [] => ""
  | p :: ps => fold_left (fun acc q => acc +:+ sep +:+ q) ps p
  end.

(** ToString, as a template literal [`${v}`] applies it. *)
Fixpoint to_string (v : value) : string :=
  match v with
  | Undefined => "undefined"
  | Null => "null"
  | Bool true => "true"
  | Bool false => "false"
  | Num n => pretty n
  | Str s => s
  | Arr items =>
      join ","
        (map (fun x => if nullish x then "" else to_string x) items)
  | Obj _ => "[object Object]"
  end.

End Js.

(** ** Options objects *)

(** An options object: own enumerable properties by name.  A property
    that is present with the value [undefined] is a binding to
    [Js.Undefined]; an absent property has no binding. *)
Abbreviation options := (gmap string Js.value).

(** [o.k] on an options object. *)
Definition prop (o : options) (k : string) : Js.value :=
  default Js.Undefined (o !! k).

(** [{ ...a, ...b }]: the properties of [b] win. *)
Definition spread (a b : options) : options := b ∪ a.

Definition defaultOptions : options :=
  {[ "mock" := Js.Bool true;
     "jsonMockup" := Js.Str "";
     "delay" := Js.Num 0;
     "timeout" := Js.Num 0;
     "showErrorDialog" := Js.Bool true ]}.

(** [shouldUseMockup]; [DEV] is [import.meta.env.DEV]. *)
Definition shouldUseMockup (DEV : bool) (o : options) : bool :=
  if negb DEV then false
  else if negb (Js.truthy (prop o "mock")) then false
  else if Js.strict_eq_str (prop o "jsonMockup") "" then false
  else true.

(** ** The transport client *)

(** What the code reads of an [AxiosResponse]: the parsed body ([any]),
    the status and the status text. *)
Record AxiosResponse : Type := {
  data : Js.value;
  status : Z;
  statusText : string
}.

(** What the code reads of an [AxiosError]: its message and the optional
    response. *)
Record AxiosError : Type := {
  message : string;
  response : option AxiosResponse
}.

(** A value caught by [catch (error)]: [axios.isAxiosError] separates the
    transport errors from everything else; a TypeError is what a property
    read on [null] or [undefined] raises. *)
Inductive thrown : Type :=
| ThrownAxios (e : AxiosError)
| ThrownTypeError (msg : string)
| ThrownOther (v : Js.value).

Definition isAxiosError (error : thrown) : option AxiosError :=
  match error with ThrownAxios e => Some e | _ => None end.

(** The shared instance of [apiClient.ts]: base address, timeout and the
    headers fixed by [axios.create]. *)
Record AxiosInstance : Type := {
  baseURL : Js.value;
  timeout : Z;
  headers : list (string * string)
}.

(** A cookie jar: [getCookie] returns [undefined] for a missing name. *)
Definition getCookie (jar : gmap string string) (name : string) : Js.value :=
  match jar !! name with Some v => Js.Str v | None => Js.Undefined end.

Definition removeCookie (jar : gmap string string) (name : string)
  : gmap string string := delete name jar.

(** [httpClient]: built once, from [VITE_API_URL] and from the cookie
    jar as it is when the module is loaded. *)
Definition httpClient (VITE_API_URL : Js.value) (jar0 : gmap string string)
  : AxiosInstance :=
  {| baseURL := VITE_API_URL;
     timeout := 60000;
     headers := [("Authorization", "Bearer " +:+ Js.to_string (getCookie jar0 "SID"))] |}.

(** The two calls [callFetch] makes on the client. *)
Inductive call : Type :=
| CallGet (url : string)          (* httpClient.get(url) *)
| CallRequest (config : options). (* httpClient.request(config) *)

(** The request that [instance.get(url)] sends: no per-call config is
    passed, so everything but the method and the url is the instance's. *)
Record sent : Type := {
  sent_method : string;
  sent_url : string;
  sent_baseURL : Js.value;
  sent_timeout : Z;
  sent_headers : list (string * string);
  sent_params : Js.value;
  sent_data : Js.value
}.

Definition instance_get (inst : AxiosInstance) (url : string) : sent :=
  {| sent_method := "get";
     sent_url := url;
     sent_baseURL := baseURL inst;
     sent_timeout := timeout inst;
     sent_headers := headers inst;
     sent_params := Js.Undefined;
     sent_data := Js.Undefined |}.

(** How an awaited call ends: a response, or a thrown value. *)
Inductive outcome : Type :=
| Responds (r : AxiosResponse)
| Fails (error : thrown).

(** ** The effects of one dispatch *)

(** Modelled from the spec: the [ServiceError] type ([types/serviceError]
    is not among the sources), a short title and a human-readable
    message; they are the two fields of the object literal [appError].
    The message is whatever [error.response.data.message || error.message]
    evaluates to, hence a value. *)
Record ServiceError : Type := {
  title : string;
  error_message : Js.value
}.

Definition MODAL_APPLICATION_ERROR : string := "applicationError".

(** The argument of [modals.openContextModal]. *)
Record ContextModal : Type := {
  modal : string;
  withCloseButton : bool;
  centered : bool;
  innerProps_title : string;
  innerProps_message : Js.value
}.

Inductive promise_state : Type :=
| Pending
| Fulfilled (v : Js.value)
| Rejected (e : ServiceError).

Inductive event : Type :=
| EvCall (c : call)
| EvRemoveCookie (name : string)
| EvNavigate (href : string)
| EvOpenContextModal (m : ContextModal)
| EvResolve (v : Js.value)
| EvReject (e : ServiceError).

(** A pending timer: the duration handed to [setTimeout] and the options
    captured by the callback [() => callFetch()]. *)
Record timer : Type := {
  timer_ms : Js.value;
  timer_fetchOptions : options
}.

(** The browser as one dispatch sees it. *)
Record world : Type := {
  cookies : gmap string string;
  location_href : string;
  promise : promise_state;
  timers : list timer;
  trace : list event
}.

Definition log (ev : event) (w : world) : world :=
  {| cookies := cookies w; location_href := location_href w;
     promise := promise w; timers := timers w;
     trace := trace w ++ [ev] |}.

(** ** A state-and-exception monad *)

Inductive completion (A : Type) : Type :=
| Normal (a : A)
| Throw (error : thrown).
Arguments Normal {A} a.
Arguments Throw {A} error.

Definition M (A : Type) : Type := world -> completion A * world.

Definition ret {A} (a : A) : M A := fun w => (Normal a, w).

Definition bind {A B} (m : M A) (k : A -> M B) : M B :=
  fun w =>
    match m w with
    | (Normal a, w') => k a w'
    | (Throw e, w') => (Throw e, w')
    end.

Definition throw {A} (e : thrown) : M A := fun w => (Throw e, w).

(** [try { body } catch (error) { handler }] *)
Definition try_catch {A} (body : M A) (handler : thrown -> M A) : M A :=
  fun w =>
    match body w with
    | (Normal a, w') => (Normal a, w')
    | (Throw e, w') => handler e w'
    end.

Notation "'let!' x ':=' m 'in' k" := (bind m (fun x => k))
  (at level 10, x name, m at level 100, k at level 200).
Notation "'do!' m 'in' k" := (bind m (fun _ => k))
  (at level 10, m at level 100, k at level 200).

(** ** The primitives [callFetch] uses *)

(** [await httpClient.get(..)] / [await httpClient.request(..)]: the call
    goes out, and the awaited promise yields a response or throws.
    [transport] stands for the network behind the client. *)
Definition await_call (transport : call -> outcome) (c : call)
  : M AxiosResponse :=
  fun w =>
    match transport c with
    | Responds r => (Normal r, log (EvCall c) w)
    | Fails e => (Throw e, log (EvCall c) w)
    end.

(** A promise settles once: later calls of [resolve] or [reject] are
    ignored. *)
Definition settle (s : promise_state) (w : world) : world :=
  {| cookies := cookies w; location_href := location_href w;
     promise := match promise w with Pending => s | settled => settled end;
     timers := timers w; trace := trace w |}.

Definition resolve (v : Js.value) : M unit :=
  fun w => (Normal tt, log (EvResolve v) (settle (Fulfilled v) w)).

Definition reject (e : ServiceError) : M unit :=
  fun w => (Normal tt, log (EvReject e) (settle (Rejected e) w)).

(** [removeCookie(name)] of typescript-cookie. *)
Definition do_removeCookie (name : string) : M unit :=
  fun w =>
    (Normal tt,
     log (EvRemoveCookie name)
       {| cookies := removeCookie (cookies w) name;
          location_href := location_href w; promise := promise w;
          timers := timers w; trace := trace w |}).

(** [window.location.href = href] *)
Definition assign_location_href (href : string) : M unit :=
  fun w =>
    (Normal tt,
     log (EvNavigate href)
       {| cookies := cookies w; location_href := href;
          promise := promise w; timers := timers w; trace := trace w |}).

(** [modals.openContextModal(m)] *)
Definition openContextModal (m : ContextModal) : M unit :=
  fun w => (Normal tt, log (EvOpenContextModal m) w).

(** [v.k], raising the TypeError of a read on [null] or [undefined]. *)
Definition read (v : Js.value) (k : string) : M Js.value :=
  match Js.get v k with
  | Some x => ret x
  | None =>
      throw (ThrownTypeError
               ("Cannot read properties of " +:+ Js.to_string v
                +:+ " (reading '" +:+ k +:+ "')"))
  end.

(** [setTimeout(() => callFetch(), ms)] *)
Definition setTimeout (fetchOptions : options) (ms : Js.value) : M unit :=
  fun w =>
    (Normal tt,
     {| cookies := cookies w; location_href := location_href w;
        promise := promise w;
        timers := timers w ++ [{| timer_ms := ms; timer_fetchOptions := fetchOptions |}];
        trace := trace w |}).

(** [new Promise(..)]: the promise of this dispatch starts pending. *)
Definition new_promise : M unit :=
  fun w =>
    (Normal tt,
     {| cookies := cookies w; location_href := location_href w;
        promise := Pending; timers := timers w; trace := trace w |}).

(** ** [createFetcher] *)

Definition fallback_title : string := "Error".
Definition fallback_message : string := "พบข้อผิดพลาด กรุณาลองใหม่อีกครั้ง".

(** Lines 52-56: the three assignments made for a transport error, in
    source order.  [error.response?.data.message] short-circuits only on
    a missing response; the read of [.message] on the body is a plain
    property read. *)
Definition normalize (error : thrown) : M (string * Js.value * bool) :=
  let initial := (fallback_title, Js.Str fallback_message, false) in
  match isAxiosError error with
  | Some error =>
      let new_title :=
        match response error with
        | Some r => statusText r
        | None => fallback_title
        end in
      let! body_message :=
        match response error with
        | Some r => read (data r) "message"
        | None => ret Js.Undefined
        end in
      let new_message := Js.or body_message (Js.Str (message error)) in
      let isUnauthorized :=
        match response error with
        | Some r => status r =? 401
        | None => false
        end in
      ret (new_title, new_message, isUnauthorized)
  | None => ret initial
  end.

(** The [catch (error)] block, lines 47-81. *)
Definition on_error (fetchOptions : options) (error : thrown) : M unit :=
  let! normalized := normalize error in
  let '(new_title, new_message, isUnauthorized) := normalized in
  do! (if isUnauthorized : bool
       then do! do_removeCookie "SID" in assign_location_href "/login"
       else ret tt) in
  let appError := {| title := new_title; error_message := new_message |} in
  do! (if Js.truthy (prop fetchOptions "showErrorDialog")
       then openContextModal
              {| modal := MODAL_APPLICATION_ERROR;
                 withCloseButton := false;
                 centered := true;
                 innerProps_title := title appError;
                 innerProps_message := error_message appError |}
       else ret tt) in
  reject appError.

(** [callFetch], lines 38-82.  A [Throw] completion is the rejection of
    the async function's own promise, which nothing observes. *)
Definition callFetch (DEV : bool) (transport : call -> outcome)
    (fetchOptions : options) : M unit :=
  try_catch
    (if shouldUseMockup DEV fetchOptions
     then
       let! response := await_call transport
                          (CallGet (Js.to_string (prop fetchOptions "jsonMockup"))) in
       resolve (data response)
     else
       let! response := await_call transport (CallRequest fetchOptions) in
       resolve (data response))
    (on_error fetchOptions).

(** The duration on line 84: [fetchOptions.delay || 0 * 1000]. *)
Definition delay_ms (fetchOptions : options) : Js.value :=
  Js.or (prop fetchOptions "delay") (Js.Num (0 * 1000)).

(** [createFetcher], the synchronous part: merge, create the promise,
    arm the timer. *)
Definition createFetcher (options : options) : M unit :=
  let fetchOptions := spread defaultOptions options in
  do! new_promise in
  setTimeout fetchOptions (delay_ms fetchOptions).

(** The event loop runs the oldest timer's callback. *)
Definition run_timer (DEV : bool) (transport : call -> outcome) : M unit :=
  fun w =>
    match timers w with
    | [] => (Normal tt, w)
    | t :: rest =>
        callFetch DEV transport (timer_fetchOptions t)
          {| cookies := cookies w; location_href := location_href w;
             promise := promise w; timers := rest; trace := trace w |}
    end.

(** One dispatch from call to settlement. *)
Definition dispatch (DEV : bool) (transport : call -> outcome)
    (options : options) : M unit :=
  do! createFetcher options in run_timer DEV transport.

(** A page before any dispatch. *)
Definition page (jar : gmap string string) (href : string) : world :=
  {| cookies := jar; location_href := href; promise := Pending;
     timers := []; trace := [] |}.

(** ** The demo services ([datas/demo/services.ts]) *)

Definition fetchDemoList_options (params : Js.value) : options :=
  {[ "url" := Js.Str "/api/demo/list";
     "jsonMockup" := Js.Str "/apiMockup/demo/list.json";
     "delay" := Js.Num 3000;
     "params" := params ]}.

Definition fetchDemoCreate_options (params : Js.value) : options :=
  {[ "method" := Js.Str "POST";
     "url" := Js.Str "/api/demo/create";
     "jsonMockup" := Js.Str "/apiMockup/demo/create.json";
     "delay" := Js.Num 3000;
     "params" := params ]}.

Definition fetchDemoList (DEV : bool) (transport : call -> outcome)
    (params : Js.value) : M unit :=
  dispatch DEV transport (fetchDemoList_options params).

Definition fetchDemoCreate (DEV : bool) (transport : call -> outcome)
    (params : Js.value) : M unit :=
  dispatch DEV transport (fetchDemoCreate_options params).

(** ** The query hooks ([datas/demo/hooks.ts]) *)

(** [select: (data) => data.data] of [useDemoList]; [None] is the
    TypeError of reading [.data] on [null] or [undefined]. *)
Definition useDemoList_select (data : Js.value) : option Js.value :=
  Js.get data "data".

Definition useDemoList_queryKey (params : Js.value) : list Js.value :=
  [Js.Str "demoList"; params].

(** Modelled from the spec: the cache of the query client behind
    [getQueryClient] (the [QueryClient] class is the library's and not
    among the sources; [libs/reactQuery/index] only creates the client,
    see [getQueryClient] below).  A cache entry is
    keyed by [[resourceName, params]], holds the last successful payload
    and the time it arrived, and can be marked stale by an explicit
    invalidation. *)
Record CacheEntry : Type := {
  queryKey : list Js.value;
  payload : option Js.value;
  updatedAt : Z;
  isInvalidated : bool
}.

(** The resource name of a key: its first component. *)
Definition resourceName (key : list Js.value) : Js.value :=
  hd Js.Undefined key.

Definition invalidate (e : CacheEntry) : CacheEntry :=
  {| queryKey := queryKey e; payload := payload e;
     updatedAt := updatedAt e; isInvalidated := true |}.

Definition key_matches (filterKey key : list Js.value) : bool :=
  match resourceName filterKey with
  | Js.Str r => Js.strict_eq_str (resourceName key) r
  | _ => false
  end.

(** Modelled from the spec: [invalidateQueries({ queryKey })] marks
    every entry whose key's resource name matches as stale. *)
Definition invalidateQueries (filterKey : list Js.value)
    (cache : list CacheEntry) : list CacheEntry :=
  map (fun e => if key_matches filterKey (queryKey e) then invalidate e else e)
      cache.

(** Modelled from the spec: an entry is stale once invalidated or once
    its freshness window has passed; a read of a stale (or empty) entry
    re-dispatches on its next render. *)
Definition isStale (staleTime now : Z) (e : CacheEntry) : bool :=
  isInvalidated e || (staleTime <=? now - updatedAt e).

Definition render_dispatches (staleTime now : Z) (e : CacheEntry) : bool :=
  match payload e with
  | None => true
  | Some _ => isStale staleTime now e
  end.

(** [onSuccess] of [useCreateDemo]. *)
Definition useCreateDemo_onSuccess (cache : list CacheEntry)
  : list CacheEntry :=
  invalidateQueries [Js.Str "demoList"] cache.

(** [mutate(body)] of [useCreateDemo]: run [fetchDemoCreate]; [onSuccess]
    runs only if its promise is fulfilled. *)
Definition useCreateDemo_mutate (DEV : bool) (transport : call -> outcome)
    (body : Js.value) (w : world) (cache : list CacheEntry)
  : world * list CacheEntry :=
  let w' := snd (fetchDemoCreate DEV transport body w) in
  match promise w' with
  | Fulfilled _ => (w', useCreateDemo_onSuccess cache)
  | _ => (w', cache)
  end.

(** ** Vocabulary of the specification *)

(** The call a dispatch hands to the client, as [callFetch] chooses it. *)
Definition issued_call (DEV : bool) (fetchOptions : options) : call :=
  if shouldUseMockup DEV fetchOptions
  then CallGet (Js.to_string (prop fetchOptions "jsonMockup"))
  else CallRequest fetchOptions.

(** The response's status text, when there is a response. *)
Definition status_text (error : thrown) : option string :=
  e ← isAxiosError error; r ← response e; Some (statusText r).

(** The response body's [message] field, when present (a truthy value
    under a readable body). *)
Definition body_message (error : thrown) : option Js.value :=
  e ← isAxiosError error; r ← response e;
  m ← Js.get (data r) "message";
  if Js.truthy m then Some m else None.

(** The underlying transport error's message. *)
Definition transport_message (error : thrown) : option string :=
  e ← isAxiosError error; Some (message e).

(** Title and message as the specification words them: status text when
    available, else the fallback title; body message when present, else
    the transport error's message, else the fallback message. *)
Definition spec_title (error : thrown) : string :=
  default fallback_title (status_text error).

Definition spec_message (error : thrown) : Js.value :=
  match body_message error with
  | Some m => m
  | None =>
      match transport_message error with
      | Some s => Js.Str s
      | None => Js.Str fallback_message
      end
  end.

Definition spec_error (error : thrown) : ServiceError :=
  {| title := spec_title error; error_message := spec_message error |}.

(** The body of an error response can be read: there is no response, or
    its parsed body is neither [null] nor [undefined]. *)
Definition body_readable (error : thrown) : bool :=
  match isAxiosError error with
  | Some e =>
      match response e with
      | Some r => negb (Js.nullish (data r))
      | None => true
      end
  | None => true
  end.

(** The HTTP status of a failure, when it has one. *)
Definition http_status (error : thrown) : option Z :=
  e ← isAxiosError error; r ← response e; Some (status r).

Definition is_unauthorized (error : thrown) : bool :=
  match http_status error with
  | Some code => code =? 401
  | None => false
  end.

Definition is_call (ev : event) : bool :=
  match ev with EvCall _ => true | _ => false end.

Definition is_open_modal (ev : event) : bool :=
  match ev with EvOpenContextModal _ => true | _ => false end.

Definition is_settlement (ev : event) : bool :=
  match ev with EvResolve _ | EvReject _ => true | _ => false end.

(** The dialog [on_error] opens for a normalized error. *)
Definition error_dialog (e : ServiceError) : ContextModal :=
  {| modal := MODAL_APPLICATION_ERROR;
     withCloseButton := false;
     centered := true;
     innerProps_title := title e;
     innerProps_message := error_message e |}.

(** ** Sample inputs *)

(** An HTTP failure as axios reports it: status, status text, parsed
    body. *)
Definition http_failure (code : Z) (text : string) (body : Js.value)
  : thrown :=
  ThrownAxios
    {| message := "Request failed with status code " +:+ pretty code;
       response := Some {| data := body; status := code; statusText := text |} |}.

Definition always (o : outcome) : call -> outcome := fun _ => o.

Definition demo_items : Js.value :=
  Js.Arr [Js.Obj [("id", Js.Num 1); ("name", Js.Str "a")]].

(** The fixture [{code:200, message:"success", data:[{id:1,name:"a"}]}]. *)
Definition demo_fixture : Js.value :=
  Js.Obj [("code", Js.Num 200); ("message", Js.Str "success");
          ("data", demo_items)].

Definition fixture_response : AxiosResponse :=
  {| data := demo_fixture; status := 200; statusText := "OK" |}.

Definition live_options : options :=
  {[ "url" := Js.Str "/api/demo/list"; "mock" := Js.Bool false ]}.

Definition silent_live_options : options :=
  {[ "url" := Js.Str "/api/demo/list"; "mock" := Js.Bool false;
     "showErrorDialog" := Js.Bool false ]}.

Definition session_jar : gmap string string := {[ "SID" := "token" ]}.

(** Options whose fixture path is present but [undefined]. *)
Definition undefined_fixture_options : options :=
  {[ "url" := Js.Str "/api/demo/list"; "jsonMockup" := Js.Undefined ]}.

(** A live failure with HTTP 500 and body [{message:"boom"}]. *)
Definition boom_failure (text msg : string) : thrown :=
  ThrownAxios
    {| message := msg;
       response :=
         Some {| data := Js.Obj [("message", Js.Str "boom")];
                 status := 500; statusText := text |} |}.

(** The network of the fixture example: the fixture path serves the
    fixture, every other call is refused. *)
Definition fixture_network (c : call) : outcome :=
  match c with
  | CallGet "/apiMockup/demo/list.json" => Responds fixture_response
  | CallGet "/apiMockup/demo/create.json" =>
      Responds
        {| data := Js.Obj [("code", Js.Num 200); ("message", Js.Str "success");
                           ("data", Js.Obj [("id", Js.Num 1); ("name", Js.Str "a")])];
           status := 200; statusText := "OK" |}
  | _ => Fails (http_failure 404 "Not Found" (Js.Str ""))
  end.

(** A cache with one read of the demo list and one read of another
    resource, both fresh. *)
Definition sample_cache : list CacheEntry :=
  [ {| queryKey := useDemoList_queryKey (Js.Obj [("limit", Js.Num 10)]);
       payload := Some demo_fixture; updatedAt := 0; isInvalidated := false |};
    {| queryKey := [Js.Str "userList"; Js.Obj [("limit", Js.Num 10)]];
       payload := Some Js.Null; updatedAt := 0; isInvalidated := false |} ].

(** What [onSuccess] of [useCreateDemo] leaves of one cache entry, as the
    specification words it: an entry of the resource is marked stale and
    re-dispatches on its next render, any other entry is as it was. *)
Definition invalidated_by_demo_mutation (before after : CacheEntry) : Prop :=
  if Js.strict_eq_str (resourceName (queryKey before)) "demoList"
  then queryKey after = queryKey before /\
       payload after = payload before /\
       isInvalidated after = true /\
       forall staleTime now, render_dispatches staleTime now after = true
  else after = before.

(** ** The modal registry ([libs/mantine/Provider.tsx]) *)

(** [<ModalsProvider modals={{ [MODAL_APPLICATION_ERROR]: AppErrorModal }}>]:
    the context modals the application registers, by key. *)
Definition registered_modals : gmap string string :=
  {[ MODAL_APPLICATION_ERROR := "AppErrorModal" ]}.

(** ** The query client ([libs/reactQuery/index.ts]) *)

(** The options [getQueryClient] passes to [new QueryClient], and the
    cache the client owns. *)
Record QueryClient : Type := {
  staleTime : Z;
  retry : bool;
  refetchOnWindowFocus : bool;
  queryCache : list CacheEntry
}.

Definition new_QueryClient : QueryClient :=
  {| staleTime := 60 * 1000;
     retry := false;
     refetchOnWindowFocus := false;
     queryCache := [] |}.

(** [getQueryClient]; the argument is the module variable
    [browserQueryClient], the result is the client returned and the
    variable afterwards.  An object is truthy, so the test
    [!browserQueryClient] holds exactly for [undefined]. *)
Definition getQueryClient (browserQueryClient : option QueryClient)
  : QueryClient * option QueryClient :=
  match browserQueryClient with
  | Some client => (client, Some client)
  | None => (new_QueryClient, Some new_QueryClient)
  end.

(** [onSuccess] of [useCreateDemo] once more, with the client it
    reaches through [getQueryClient()] made explicit: the invalidation
    changes the cache of that client in place, and the module variable
    keeps referring to it. *)
Definition useCreateDemo_onSuccess_shared
    (browserQueryClient : option QueryClient) : option QueryClient :=
  let client := fst (getQueryClient browserQueryClient) in
  Some {| staleTime := staleTime client;
          retry := retry client;
          refetchOnWindowFocus := refetchOnWindowFocus client;
          queryCache := invalidateQueries [Js.Str "demoList"] (queryCache client) |}.

(** ** The counter store ([stores/counter.ts]) *)

Module Counter.

(** The largest magnitude below which every integer is a double. *)
Definition two53 : Z := 9007199254740992.

(** The integer-valued double nearest to an integer, ties to even: the
    result of an addition or subtraction of integer-valued doubles is
    the exact result rounded this way.  (No sum formed by the store, a
    finite count plus or minus one, overflows.) *)
Definition round_double (z : Z) : Z :=
  let a := Z.abs z in
  if a <=? two53 then z
  else
    let k := Z.log2 a - 52 in
    let q := a / 2 ^ k in
    let r := a mod 2 ^ k in
    let half := 2 ^ (k - 1) in
    let q' := if r <? half then q
              else if half <? r then q + 1
              else if Z.even q then q else q + 1 in
    Z.sgn z * q' * 2 ^ k.

(** [a + b] and [a - b] on integer-valued numbers. *)
Definition add (a b : Z) : Z := round_double (a + b).
Definition sub (a b : Z) : Z := round_double (a - b).

Record CounterState : Type := { count : Z }.

(** The state [create] starts from. *)
Definition initial : CounterState := {| count := 0 |}.

(** [set((state) => ({ count: state.count + 1 }))] *)
Definition increase (state : CounterState) : CounterState :=
  {| count := add (count state) 1 |}.

(** [set((state) => ({ count: state.count - 1 }))] *)
Definition decrease (state : CounterState) : CounterState :=
  {| count := sub (count state) 1 |}.

(** [set({ count: 0 })] *)
Definition reset (state : CounterState) : CounterState :=
  {| count := 0 |}.

(** The three buttons of the Store page. *)
Inductive action : Type := Increase | Decrease | Reset.

Definition act (state : CounterState) (a : action) : CounterState :=
  match a with
  | Increase => increase state
  | Decrease => decrease state
  | Reset => reset state
  end.

(** A session of clicks, in order. *)
Definition clicks (actions : list action) (state : CounterState)
  : CounterState :=
  fold_left act actions state.

(** The count a session should show, in exact integer arithmetic. *)
Definition tally (actions : list action) (c : Z) : Z :=
  fold_left (fun c a =>
               match a with
               | Increase => c + 1
               | Decrease => c - 1
               | Reset => 0
               end) actions c.

End Counter.

(** ** More vocabulary and sample inputs *)

Definition is_remove_cookie (ev : event) : bool :=
  match ev with EvRemoveCookie _ => true | _ => false end.

Definition is_navigate (ev : event) : bool :=
  match ev with EvNavigate _ => true | _ => false end.

(** What a dispatch leaves of the promise, read off the answer of the
    network to the call it issues. *)
Definition settlement (answer : outcome) : promise_state :=
  match answer with
  | Responds r => Fulfilled (data r)
  | Fails err =>
      if body_readable err then Rejected (spec_error err) else Pending
  end.

(** A failure without a response: the request never got an answer. *)
Definition network_error : thrown :=
  ThrownAxios {| message := "Network Error"; response := None |}.

(** A jar with a session and another cookie. *)
Definition two_cookie_jar : gmap string string :=
  {[ "SID" := "token"; "lang" := "th" ]}.

(** * Properties *)

(** ** Shared facts *)

Lemma prop_spread (a b : options) (k : string) :
  prop (spread a b) k =
  match b !! k with Some v => v | None => prop a k end.
Proof.
  unfold prop, spread. rewrite lookup_union.
  destruct (b !! k), (a !! k); reflexivity.
Qed.

Lemma shouldUseMockup_spec (DEV : bool) (o : options) :
  shouldUseMockup DEV o =
  DEV && Js.truthy (prop o "mock")
      && negb (Js.strict_eq_str (prop o "jsonMockup") "").
Proof.
  unfold shouldUseMockup.
  destruct DEV, (Js.truthy (prop o "mock")),
    (Js.strict_eq_str (prop o "jsonMockup") ""); reflexivity.
Qed.

Lemma dispatch_page DEV transport (opts : options) jar href :
  dispatch DEV transport opts (page jar href) =
  callFetch DEV transport (spread defaultOptions opts) (page jar href).
Proof. reflexivity. Qed.

Lemma callFetch_responds DEV transport (fo : options) r w :
  transport (issued_call DEV fo) = Responds r ->
  callFetch DEV transport fo w =
  (Normal tt,
   log (EvResolve (data r))
     (settle (Fulfilled (data r)) (log (EvCall (issued_call DEV fo)) w))).
Proof.
  unfold callFetch, try_catch, issued_call, bind, await_call.
  destruct (shouldUseMockup DEV fo); intros ->; reflexivity.
Qed.

Lemma callFetch_fails DEV transport (fo : options) err w :
  transport (issued_call DEV fo) = Fails err ->
  callFetch DEV transport fo w =
  on_error fo err (log (EvCall (issued_call DEV fo)) w).
Proof.
  unfold callFetch, try_catch, issued_call, bind, await_call.
  destruct (shouldUseMockup DEV fo); intros ->; reflexivity.
Qed.

(** With a readable body the three assignments of the catch block
    compute exactly the title, message and 401 test of the
    specification. *)
Lemma normalize_readable err w :
  body_readable err = true ->
  normalize err w =
  (Normal (spec_title err, spec_message err, is_unauthorized err), w).
Proof.
  destruct err as [[msg [[body code text]|]]|msg|v]; try reflexivity.
  unfold body_readable; simpl. intros Hbody.
  unfold normalize, spec_title, spec_message, body_message, is_unauthorized,
    http_status, status_text, transport_message, read, bind, ret; simpl.
  destruct body as [| |b|n|s|items|fields]; simpl in *;
    try discriminate; try reflexivity.
  unfold Js.or. destruct (Js.truthy (Js.assoc "message" fields)); reflexivity.
Qed.

(** With a [null] or [undefined] body the read of [.message] throws, and
    nothing has been done yet. *)
Lemma normalize_unreadable err w :
  body_readable err = false ->
  exists msg, normalize err w = (Throw (ThrownTypeError msg), w).
Proof.
  destruct err as [[msg [[body code text]|]]|msg|v]; try discriminate.
  unfold body_readable; simpl.
  destruct body; simpl; try discriminate; intros _;
    eexists; reflexivity.
Qed.

Lemma on_error_unreadable (fo : options) err w :
  body_readable err = false ->
  exists msg, on_error fo err w = (Throw (ThrownTypeError msg), w).
Proof.
  intros H. destruct (normalize_unreadable err w H) as [msg Hn].
  exists msg. unfold on_error, bind. rewrite Hn. reflexivity.
Qed.

Lemma on_error_readable (fo : options) err w :
  body_readable err = true ->
  on_error fo err w =
  (Normal tt,
   snd (reject (spec_error err)
     (snd ((if Js.truthy (prop fo "showErrorDialog")
            then openContextModal (error_dialog (spec_error err))
            else ret tt)
       (snd ((if is_unauthorized err
              then do! do_removeCookie "SID" in assign_location_href "/login"
              else ret tt) w)))))).
Proof.
  intros H. unfold on_error, bind at 1. rewrite (normalize_readable _ _ H).
  destruct (is_unauthorized err), (Js.truthy (prop fo "showErrorDialog"));
    reflexivity.
Qed.

(** ** One dispatch, case by case *)

Section Dispatch.

Variable DEV : bool.
Variable transport : call -> outcome.
Variable opts : options.
Variable jar : gmap string string.
Variable href : string.

Let fo : options := spread defaultOptions opts.
Let run := dispatch DEV transport opts (page jar href).

(** The awaited call responds. *)
Lemma dispatch_responds r :
  transport (issued_call DEV fo) = Responds r ->
  fst run = Normal tt /\
  promise (snd run) = Fulfilled (data r) /\
  cookies (snd run) = jar /\
  location_href (snd run) = href /\
  trace (snd run) = [EvCall (issued_call DEV fo); EvResolve (data r)].
Proof.
  intros H. unfold run. rewrite dispatch_page.
  rewrite (callFetch_responds _ _ _ _ _ H). repeat split.
Qed.

(** The awaited call throws and the catch block runs to its end. *)
Lemma dispatch_fails_readable err :
  transport (issued_call DEV fo) = Fails err ->
  body_readable err = true ->
  fst run = Normal tt /\
  promise (snd run) = Rejected (spec_error err) /\
  cookies (snd run) =
    (if is_unauthorized err then removeCookie jar "SID" else jar) /\
  location_href (snd run) =
    (if is_unauthorized err then "/login" else href) /\
  trace (snd run) =
    EvCall (issued_call DEV fo)
    :: (if is_unauthorized err
        then [EvRemoveCookie "SID"; EvNavigate "/login"] else [])
    ++ (if Js.truthy (prop fo "showErrorDialog")
        then [EvOpenContextModal (error_dialog (spec_error err))] else [])
    ++ [EvReject (spec_error err)].
Proof.
  intros H Hbody. unfold run. rewrite dispatch_page.
  rewrite (callFetch_fails _ _ _ _ _ H).
  rewrite (on_error_readable _ _ _ Hbody).
  destruct (is_unauthorized err), (Js.truthy (prop fo "showErrorDialog"));
    repeat split.
Qed.

(** The awaited call throws and the catch block itself throws: nothing
    is cleared, opened or settled. *)
Lemma dispatch_fails_unreadable err :
  transport (issued_call DEV fo) = Fails err ->
  body_readable err = false ->
  (exists msg, fst run = Throw (ThrownTypeError msg)) /\
  promise (snd run) = Pending /\
  cookies (snd run) = jar /\
  location_href (snd run) = href /\
  trace (snd run) = [EvCall (issued_call DEV fo)].
Proof.
  intros H Hbody. unfold run. rewrite dispatch_page.
  rewrite (callFetch_fails _ _ _ _ _ H).
  destruct (on_error_unreadable fo err
              (log (EvCall (issued_call DEV fo)) (page jar href)) Hbody)
    as [msg ->].
  repeat split. exists msg. reflexivity.
Qed.

End Dispatch.

Lemma is_unauthorized_401 err :
  is_unauthorized err = true <-> http_status err = Some 401.
Proof.
  unfold is_unauthorized. destruct (http_status err) as [code|].
  - rewrite Z.eqb_eq. split; [intros -> | intros [= ->]]; reflexivity.
  - split; discriminate.
Qed.

(** For a failure with a readable body the session is cleared exactly on
    status 401, whatever [showErrorDialog] says. *)
Lemma session_cleared_iff_401 DEV transport (opts : options) jar href err :
  let run := dispatch DEV transport opts (page jar href) in
  transport (issued_call DEV (spread defaultOptions opts)) = Fails err ->
  body_readable err = true ->
  promise (snd run) = Rejected (spec_error err) /\
  (http_status err = Some 401 ->
     cookies (snd run) !! "SID" = None /\ location_href (snd run) = "/login") /\
  (http_status err <> Some 401 ->
     cookies (snd run) = jar /\ location_href (snd run) = href).
Proof.
  intros run H Hbody.
  destruct (dispatch_fails_readable DEV transport opts jar href err H Hbody)
    as (_ & Hp & Hc & Hl & _).
  fold run in Hp, Hc, Hl. split; [exact Hp|]. split; intros Hs.
  - apply is_unauthorized_401 in Hs. rewrite Hs in Hc, Hl.
    rewrite Hc, Hl. split; [apply lookup_delete_eq | reflexivity].
  - destruct (is_unauthorized err) eqn:Hu.
    + apply is_unauthorized_401 in Hu. contradiction.
    + split; assumption.
Qed.

(** A failure whose status is not 401 never touches the session, readable
    body or not. *)
Lemma session_kept_unless_401 DEV transport (opts : options) jar href err :
  let run := dispatch DEV transport opts (page jar href) in
  transport (issued_call DEV (spread defaultOptions opts)) = Fails err ->
  http_status err <> Some 401 ->
  cookies (snd run) = jar /\ location_href (snd run) = href.
Proof.
  intros run H Hs. destruct (body_readable err) eqn:Hbody.
  - apply (session_cleared_iff_401 DEV transport opts jar href err H Hbody).
    exact Hs.
  - destruct (dispatch_fails_unreadable DEV transport opts jar href err H Hbody)
      as (_ & _ & Hc & Hl & _).
    split; assumption.
Qed.

(** For a failure with a readable body: one dialog, carrying the rejected
    title and message, opened before the rejection, when
    [showErrorDialog] is truthy; none otherwise. *)
Lemma dialog_before_rejection DEV transport (opts : options) jar href err :
  let fo := spread defaultOptions opts in
  let run := dispatch DEV transport opts (page jar href) in
  transport (issued_call DEV fo) = Fails err ->
  body_readable err = true ->
  (Js.truthy (prop fo "showErrorDialog") = true ->
     filter is_open_modal (trace (snd run)) =
       [EvOpenContextModal (error_dialog (spec_error err))] /\
     exists before : list event,
       trace (snd run) =
         (before ++ [EvOpenContextModal (error_dialog (spec_error err));
                     EvReject (spec_error err)])%list) /\
  (Js.truthy (prop fo "showErrorDialog") = false ->
     filter is_open_modal (trace (snd run)) = []).
Proof.
  intros fo run H Hbody.
  destruct (dispatch_fails_readable DEV transport opts jar href err H Hbody)
    as (_ & _ & _ & _ & Ht).
  fold run fo in Ht. rewrite Ht. split; intros ->.
  - destruct (is_unauthorized err); simpl; split; try reflexivity.
    + exists [EvCall (issued_call DEV fo); EvRemoveCookie "SID";
              EvNavigate "/login"]. reflexivity.
    + exists [EvCall (issued_call DEV fo)]. reflexivity.
  - destruct (is_unauthorized err); reflexivity.
Qed.

(** ** The properties of the specification *)

(** C1 (as amended).  A dispatch in mock mode whose fixture request is
    answered resolves with the response's [data], which is the whole
    parsed body of the fixture (the [{code, message, data}] envelope)
    and not its [data] field; the field is taken afterwards by the
    [select] of [useDemoList], which on the example fixture yields
    [[{id:1,name:"a"}]]. *)
Theorem C1_mock_dispatch_resolves_with_whole_body
    DEV transport (opts : options) jar href r :
  let fo := spread defaultOptions opts in
  shouldUseMockup DEV fo = true ->
  transport (CallGet (Js.to_string (prop fo "jsonMockup"))) = Responds r ->
  promise (snd (dispatch DEV transport opts (page jar href)))
    = Fulfilled (data r) /\
  useDemoList_select demo_fixture = Some demo_items.
Proof.
  intros fo Hmock Hr. split; [|reflexivity].
  apply (dispatch_responds DEV transport opts jar href r).
  unfold issued_call. fold fo. rewrite Hmock. exact Hr.
Qed.

Lemma C1_mock_dispatch_resolves_with_whole_body_witness :
  promise (snd (dispatch true fixture_network
                  (fetchDemoList_options (Js.Obj [("limit", Js.Num 10)]))
                  (page session_jar "/")))
    = Fulfilled demo_fixture /\
  useDemoList_select demo_fixture = Some demo_items.
Proof.
  apply (C1_mock_dispatch_resolves_with_whole_body true fixture_network
           (fetchDemoList_options (Js.Obj [("limit", Js.Num 10)]))
           session_jar "/" fixture_response);
    vm_compute; reflexivity.
Defined.

(** C1 (as stated) fails: in mock mode, with the example fixture, the
    promise is fulfilled with the envelope and not with
    [[{id:1,name:"a"}]]. *)
Lemma C1_counterexample_envelope_not_data :
  let fo := spread defaultOptions
              (fetchDemoList_options (Js.Obj [("limit", Js.Num 10)])) in
  let w := snd (dispatch true fixture_network
                  (fetchDemoList_options (Js.Obj [("limit", Js.Num 10)]))
                  (page session_jar "/")) in
  shouldUseMockup true fo = true /\
  promise w = Fulfilled demo_fixture /\
  promise w <> Fulfilled demo_items.
Proof.
  vm_compute. repeat split. discriminate.
Qed.

(** C3.  [shouldUseMockup] is the conjunction of: development build,
    truthy [mock], and [jsonMockup] different from the empty string.  A
    fixture path that is [undefined] (absent from the object, or present
    as [undefined] in the merged options) is different from [''], so the
    predicate is true although no fixture path is supplied, and the
    dispatch then requests the url ["undefined"]. *)
Theorem C3_undefined_fixture_path_uses_mockup :
  let fo := spread defaultOptions undefined_fixture_options in
  (forall DEV (o : options),
     shouldUseMockup DEV o =
     DEV && Js.truthy (prop o "mock")
         && negb (Js.strict_eq_str (prop o "jsonMockup") "")) /\
  shouldUseMockup true {[ "mock" := Js.Bool true ]} = true /\
  prop fo "mock" = Js.Bool true /\
  prop fo "jsonMockup" = Js.Undefined /\
  shouldUseMockup true fo = true /\
  issued_call true fo = CallGet "undefined".
Proof.
  split; [exact shouldUseMockup_spec|]. vm_compute. repeat split.
Qed.

(** C7.  [createFetcher] arms one timer and does nothing else: the
    duration handed to the scheduler is the merged [delay] itself when
    it is truthy and [0] otherwise (never a multiple by 1000: the
    services' [delay: 3000] is scheduled as [3000]); no call has gone out
    and the promise is pending when [createFetcher] returns, also for
    delay 0; the call happens when the timer's callback runs. *)
Theorem C7_delay_is_passed_unscaled (opts : options) (w : world) :
  let fo := spread defaultOptions opts in
  let w' := snd (createFetcher opts w) in
  fst (createFetcher opts w) = Normal tt /\
  timers w' =
    (timers w ++
     [{| timer_ms := if Js.truthy (prop fo "delay")
                     then prop fo "delay" else Js.Num 0;
         timer_fetchOptions := fo |}])%list /\
  trace w' = trace w /\
  promise w' = Pending /\
  (forall p, delay_ms (spread defaultOptions (fetchDemoList_options p))
             = Js.Num 3000) /\
  (forall DEV transport jar href,
     dispatch DEV transport opts (page jar href) =
     callFetch DEV transport fo (page jar href)).
Proof.
  repeat split.
Qed.

(** C8.  The options [callFetch] works with are the caller's object
    spread over [defaultOptions]: every property the caller's object has
    keeps the caller's value, every other property has its default, and
    the defaults are exactly [mock: true], [jsonMockup: ''], [delay: 0],
    [timeout: 0], [showErrorDialog: true]. *)
Theorem C8_options_merged_over_defaults (opts : options) (w : world) :
  let fo := spread defaultOptions opts in
  timers (snd (createFetcher opts w)) =
    (timers w ++ [{| timer_ms := delay_ms fo; timer_fetchOptions := fo |}])%list /\
  (forall k, fo !! k =
             match opts !! k with
             | Some v => Some v
             | None => defaultOptions !! k
             end) /\
  defaultOptions !! "mock" = Some (Js.Bool true) /\
  defaultOptions !! "jsonMockup" = Some (Js.Str "") /\
  defaultOptions !! "delay" = Some (Js.Num 0) /\
  defaultOptions !! "timeout" = Some (Js.Num 0) /\
  defaultOptions !! "showErrorDialog" = Some (Js.Bool true) /\
  size defaultOptions = 5%nat.
Proof.
  intros fo. split; [reflexivity|]. split.
  - intros k. unfold fo, spread. rewrite lookup_union.
    destruct (opts !! k), (defaultOptions !! k); reflexivity.
  - vm_compute. repeat split.
Qed.

(** C2.  A live call that fails with HTTP 401 and whose parsed body is
    [null]: the read [error.response?.data.message] throws inside the
    catch block before the 401 test, so the promise is never rejected,
    the cookie ['SID'] stays and no navigation is issued. *)
Theorem C2_unauthorized_with_null_body_keeps_session :
  let err := http_failure 401 "Unauthorized" Js.Null in
  let run := dispatch false (always (Fails err)) silent_live_options
               (page session_jar "/") in
  http_status err = Some 401 /\
  fst run =
    Throw (ThrownTypeError "Cannot read properties of null (reading 'message')") /\
  promise (snd run) = Pending /\
  cookies (snd run) !! "SID" = Some "token" /\
  location_href (snd run) = "/" /\
  trace (snd run) =
    [EvCall (CallRequest (spread defaultOptions silent_live_options))].
Proof. vm_compute. repeat split. Qed.

(** C4.  A live call that fails with HTTP 500 and whose parsed body is
    [null]: [createFetcher] returns normally, but when the timer fires
    the catch block throws at the read of [.message], [reject] is never
    reached and the returned promise stays pending. *)
Theorem C4_failure_with_null_body_never_settles :
  let err := http_failure 500 "Internal Server Error" Js.Null in
  let w0 := page session_jar "/" in
  let run := dispatch false (always (Fails err)) live_options w0 in
  fst (createFetcher live_options w0) = Normal tt /\
  fst run =
    Throw (ThrownTypeError "Cannot read properties of null (reading 'message')") /\
  promise (snd run) = Pending /\
  filter is_settlement (trace (snd run)) = [].
Proof. vm_compute. repeat split. Qed.

(** C6.  A failed call with [showErrorDialog] left at its default [true]
    and a response whose parsed body is [null]: the catch block
    throws before [modals.openContextModal], so the registry receives no
    invocation and no rejection follows. *)
Theorem C6_failure_with_unreadable_body_opens_no_dialog :
  let err := http_failure 503 "Service Unavailable" Js.Null in
  let fo := spread defaultOptions (fetchDemoList_options Js.Null) in
  let run := dispatch false (always (Fails err))
               (fetchDemoList_options Js.Null) (page session_jar "/") in
  prop fo "showErrorDialog" = Js.Bool true /\
  filter is_open_modal (trace (snd run)) = [] /\
  promise (snd run) = Pending.
Proof. vm_compute. repeat split. Qed.

(** Whenever a dispatch whose call failed does reject, the rejected
    [ServiceError] has as title the response's status text when there is
    a response and ['Error'] otherwise, and as message the response
    body's [message] field when present, else the transport error's
    message, else the localized fallback; it does reject whenever the
    body of the error response can be read, and so a live call failing
    with HTTP 500 and body [{message:"boom"}] rejects with the response's
    status text as title and ["boom"] as message. *)
Lemma rejected_error_is_normalized
    DEV transport (opts : options) jar href err :
  let fo := spread defaultOptions opts in
  let w' := snd (dispatch DEV transport opts (page jar href)) in
  transport (issued_call DEV fo) = Fails err ->
  (forall e, promise w' = Rejected e ->
             title e = spec_title err /\ error_message e = spec_message err) /\
  (body_readable err = true -> promise w' = Rejected (spec_error err)) /\
  (forall text msg,
     err = boom_failure text msg ->
     promise w' = Rejected {| title := text; error_message := Js.Str "boom" |}).
Proof.
  intros fo w' H.
  assert (Hrej : forall e, promise w' = Rejected e -> e = spec_error err).
  { intros e. unfold w'. destruct (body_readable err) eqn:Hbody.
    - destruct (dispatch_fails_readable DEV transport opts jar href err H Hbody)
        as (_ & -> & _).
      intros [= <-]. reflexivity.
    - destruct (dispatch_fails_unreadable DEV transport opts jar href err H Hbody)
        as (_ & -> & _).
      discriminate. }
  split; [|split].
  - intros e He. rewrite (Hrej e He). split; reflexivity.
  - intros Hbody.
    apply (dispatch_fails_readable DEV transport opts jar href err H Hbody).
  - intros text msg ->.
    apply (dispatch_fails_readable DEV transport opts jar href
             (boom_failure text msg) H).
    reflexivity.
Qed.

Lemma rejected_error_is_normalized_example :
  promise (snd (dispatch false
                  (always (Fails (boom_failure "Internal Server Error"
                                    "Request failed with status code 500")))
                  live_options (page session_jar "/")))
  = Rejected {| title := "Internal Server Error";
                error_message := Js.Str "boom" |}.
Proof.
  apply (rejected_error_is_normalized false
           (always (Fails (boom_failure "Internal Server Error"
                             "Request failed with status code 500")))
           live_options session_jar "/"
           (boom_failure "Internal Server Error"
              "Request failed with status code 500")
           eq_refl).
  reflexivity.
Defined.

(** C5.  A live call that fails with HTTP 502, status text
    ["Bad Gateway"], and whose parsed body is [null]: the status text
    and the transport error's message are both available, but the read
    [error.response?.data.message] throws inside the catch block, so no
    [ServiceError] is built and none is rejected: the promise stays
    pending and no settlement happens.  The title and message the
    specification words for this failure are never delivered. *)
Theorem C5_failure_with_null_body_rejects_nothing :
  let err := http_failure 502 "Bad Gateway" Js.Null in
  let run := dispatch false (always (Fails err)) live_options
               (page session_jar "/") in
  status_text err = Some "Bad Gateway" /\
  transport_message err = Some "Request failed with status code 502" /\
  spec_error err =
    {| title := "Bad Gateway";
       error_message := Js.Str "Request failed with status code 502" |} /\
  fst run =
    Throw (ThrownTypeError "Cannot read properties of null (reading 'message')") /\
  promise (snd run) = Pending /\
  filter is_settlement (trace (snd run)) = [].
Proof. vm_compute. repeat split. Qed.

Lemma useCreateDemo_mutate_world DEV transport body w (cache : list CacheEntry) :
  fst (useCreateDemo_mutate DEV transport body w cache)
  = snd (fetchDemoCreate DEV transport body w).
Proof.
  unfold useCreateDemo_mutate.
  destruct (promise (snd (fetchDemoCreate DEV transport body w))); reflexivity.
Qed.

Lemma useCreateDemo_mutate_success DEV transport body w (cache : list CacheEntry) v :
  promise (snd (fetchDemoCreate DEV transport body w)) = Fulfilled v ->
  snd (useCreateDemo_mutate DEV transport body w cache)
  = useCreateDemo_onSuccess cache.
Proof.
  unfold useCreateDemo_mutate. intros ->. reflexivity.
Qed.

Lemma useCreateDemo_mutate_failure DEV transport body w (cache : list CacheEntry) :
  (forall v, promise (snd (fetchDemoCreate DEV transport body w)) <> Fulfilled v) ->
  snd (useCreateDemo_mutate DEV transport body w cache) = cache.
Proof.
  unfold useCreateDemo_mutate. intros H.
  destruct (promise (snd (fetchDemoCreate DEV transport body w))) as [|v|e];
    try reflexivity.
  destruct (H v eq_refl).
Qed.

Lemma onSuccess_invalidates (cache : list CacheEntry) :
  Forall2 invalidated_by_demo_mutation cache (useCreateDemo_onSuccess cache).
Proof.
  unfold useCreateDemo_onSuccess, invalidateQueries.
  induction cache as [|e rest IH]; constructor; [|exact IH].
  unfold invalidated_by_demo_mutation, key_matches. simpl.
  destruct (Js.strict_eq_str (resourceName (queryKey e)) "demoList");
    [|reflexivity].
  split; [reflexivity|]. split; [reflexivity|]. split; [reflexivity|].
  intros staleTime now.
  unfold render_dispatches, isStale. simpl. destruct (payload e); reflexivity.
Qed.

(** C9.  After a successful [mutate] of [useCreateDemo], every cache
    entry whose key's resource name is ['demoList'] (the name under which
    [useDemoList] caches its reads) is marked stale, so that its next
    render re-dispatches, and every entry keyed by another resource name
    is unchanged. *)
Theorem C9_successful_mutation_invalidates_resource
    DEV transport body jar href (cache : list CacheEntry) v :
  let after := useCreateDemo_mutate DEV transport body (page jar href) cache in
  promise (fst after) = Fulfilled v ->
  Forall2 invalidated_by_demo_mutation cache (snd after) /\
  (forall params,
     Js.strict_eq_str (resourceName (useDemoList_queryKey params)) "demoList"
     = true).
Proof.
  intros after H. split; [|reflexivity].
  unfold after in *. rewrite useCreateDemo_mutate_world in H.
  rewrite (useCreateDemo_mutate_success _ _ _ _ _ _ H).
  apply onSuccess_invalidates.
Qed.

Lemma C9_successful_mutation_invalidates_resource_witness :
  Forall2 invalidated_by_demo_mutation sample_cache
    (snd (useCreateDemo_mutate true fixture_network
            (Js.Obj [("id", Js.Num 0); ("name", Js.Str "a")])
            (page session_jar "/") sample_cache)).
Proof.
  refine (proj1 (C9_successful_mutation_invalidates_resource true fixture_network
                   (Js.Obj [("id", Js.Num 0); ("name", Js.Str "a")])
                   session_jar "/" sample_cache
                   (Js.Obj [("code", Js.Num 200); ("message", Js.Str "success");
                            ("data", Js.Obj [("id", Js.Num 1); ("name", Js.Str "a")])])
                   _)).
  vm_compute. reflexivity.
Defined.

(** C10.  On the mock path the only call a dispatch makes on the client
    is [get] with the merged [jsonMockup] as url (the string itself when
    it is a string); the call is determined by [jsonMockup] alone, so
    the caller's method, url, params, data and headers play no part; and
    the request [get(url)] sends has the instance's headers, that is the
    [Authorization: Bearer] header computed from the cookie jar at the
    construction of [httpClient], not from the jar at dispatch time. *)
Theorem C10_mock_path_issues_one_get
    DEV transport (opts : options) jar href :
  let fo := spread defaultOptions opts in
  let w' := snd (dispatch DEV transport opts (page jar href)) in
  shouldUseMockup DEV fo = true ->
  filter is_call (trace w') =
    [EvCall (CallGet (Js.to_string (prop fo "jsonMockup")))] /\
  (forall s, prop fo "jsonMockup" = Js.Str s ->
             filter is_call (trace w') = [EvCall (CallGet s)]) /\
  (forall opts' : options,
     shouldUseMockup DEV (spread defaultOptions opts') = true ->
     prop (spread defaultOptions opts') "jsonMockup" = prop fo "jsonMockup" ->
     issued_call DEV (spread defaultOptions opts') = issued_call DEV fo) /\
  (forall VITE_API_URL jar0 url,
     instance_get (httpClient VITE_API_URL jar0) url =
     {| sent_method := "get";
        sent_url := url;
        sent_baseURL := VITE_API_URL;
        sent_timeout := 60000;
        sent_headers :=
          [("Authorization", "Bearer " +:+ Js.to_string (getCookie jar0 "SID"))];
        sent_params := Js.Undefined;
        sent_data := Js.Undefined |}).
Proof.
  intros fo w' Hmock.
  assert (Hcall : issued_call DEV fo
                  = CallGet (Js.to_string (prop fo "jsonMockup"))).
  { unfold issued_call. rewrite Hmock. reflexivity. }
  assert (Hone : filter is_call (trace w')
                 = [EvCall (CallGet (Js.to_string (prop fo "jsonMockup")))]).
  { rewrite <- Hcall. unfold w'.
    destruct (transport (issued_call DEV fo)) as [r|err] eqn:Ht.
    - destruct (dispatch_responds DEV transport opts jar href r Ht)
        as (_ & _ & _ & _ & ->). reflexivity.
    - destruct (body_readable err) eqn:Hbody.
      + destruct (dispatch_fails_readable DEV transport opts jar href err Ht Hbody)
          as (_ & _ & _ & _ & ->).
        destruct (is_unauthorized err), (Js.truthy (prop _ "showErrorDialog"));
          reflexivity.
      + destruct (dispatch_fails_unreadable DEV transport opts jar href err Ht Hbody)
          as (_ & _ & _ & _ & ->). reflexivity. }
  split; [exact Hone|]. split; [|split].
  - intros s Hs. rewrite Hone, Hs. reflexivity.
  - intros opts' Hmock' Hsame. unfold issued_call.
    rewrite Hmock', Hmock, Hsame. reflexivity.
  - reflexivity.
Qed.

Lemma C10_mock_path_issues_one_get_witness :
  shouldUseMockup true
    (spread defaultOptions (fetchDemoCreate_options (Js.Obj [("id", Js.Num 0)])))
  = true /\
  filter is_call
    (trace (snd (dispatch true fixture_network
                   (fetchDemoCreate_options (Js.Obj [("id", Js.Num 0)]))
                   (page session_jar "/"))))
  = [EvCall (CallGet "/apiMockup/demo/create.json")].
Proof.
  assert (H : shouldUseMockup true
                (spread defaultOptions
                   (fetchDemoCreate_options (Js.Obj [("id", Js.Num 0)])))
              = true) by (vm_compute; reflexivity).
  split; [exact H|].
  exact (proj1 (C10_mock_path_issues_one_get true fixture_network
                  (fetchDemoCreate_options (Js.Obj [("id", Js.Num 0)]))
                  session_jar "/" H)).
Defined.

(** * Further properties of the code *)

(** ** [createFetcher]: what one dispatch does *)

(** The trace of a dispatch, in the three ways it can end. *)
Lemma dispatch_trace DEV transport (opts : options) jar href :
  let fo := spread defaultOptions opts in
  trace (snd (dispatch DEV transport opts (page jar href))) =
  EvCall (issued_call DEV fo)
  :: match transport (issued_call DEV fo) with
     | Responds r => [EvResolve (data r)]
     | Fails err =>
         if body_readable err
         then (if is_unauthorized err
               then [EvRemoveCookie "SID"; EvNavigate "/login"] else [])
              ++ (if Js.truthy (prop fo "showErrorDialog")
                  then [EvOpenContextModal (error_dialog (spec_error err))]
                  else [])
              ++ [EvReject (spec_error err)]
         else []
     end.
Proof.
  intros fo. destruct (transport (issued_call DEV fo)) as [r|err] eqn:Ht.
  - apply (dispatch_responds DEV transport opts jar href r Ht).
  - destruct (body_readable err) eqn:Hbody.
    + apply (dispatch_fails_readable DEV transport opts jar href err Ht Hbody).
    + apply (dispatch_fails_unreadable DEV transport opts jar href err Ht Hbody).
Qed.

Lemma dispatch_promise DEV transport (opts : options) jar href :
  promise (snd (dispatch DEV transport opts (page jar href))) =
  settlement (transport (issued_call DEV (spread defaultOptions opts))).
Proof.
  unfold settlement.
  destruct (transport (issued_call DEV (spread defaultOptions opts)))
    as [r|err] eqn:Ht.
  - apply (dispatch_responds DEV transport opts jar href r Ht).
  - destruct (body_readable err) eqn:Hbody.
    + apply (dispatch_fails_readable DEV transport opts jar href err Ht Hbody).
    + apply (dispatch_fails_unreadable DEV transport opts jar href err Ht Hbody).
Qed.

Lemma dispatch_calls DEV transport (opts : options) jar href :
  filter is_call (trace (snd (dispatch DEV transport opts (page jar href)))) =
  [EvCall (issued_call DEV (spread defaultOptions opts))].
Proof.
  rewrite dispatch_trace.
  destruct (transport _) as [r|err]; [reflexivity|].
  destruct (body_readable err); [|reflexivity].
  destruct (is_unauthorized err), (Js.truthy (prop _ "showErrorDialog"));
    reflexivity.
Qed.

(** X1.  No retry and no repeated effect: whatever the options, the
    build mode and the answer of the network, one dispatch makes exactly
    one call on the client, settles its promise at most once, opens at
    most one dialog, removes a cookie at most once and navigates at most
    once. *)
Theorem X1_dispatch_effects_happen_at_most_once
    DEV transport (opts : options) jar href :
  let t := trace (snd (dispatch DEV transport opts (page jar href))) in
  List.length (filter is_call t) = 1%nat /\
  (List.length (filter is_settlement t) <= 1)%nat /\
  (List.length (filter is_open_modal t) <= 1)%nat /\
  (List.length (filter is_remove_cookie t) <= 1)%nat /\
  (List.length (filter is_navigate t) <= 1)%nat.
Proof.
  intros t. unfold t. rewrite dispatch_trace.
  destruct (transport _) as [r|err]; [simpl; repeat split; lia|].
  destruct (body_readable err); [|simpl; repeat split; lia].
  destruct (is_unauthorized err), (Js.truthy (prop _ "showErrorDialog"));
    simpl; repeat split; lia.
Qed.

(** X2.  How a dispatch ends is decided by the answer to its one call
    alone: fulfilled with the body if the call responds, rejected with
    the normalized error if it fails with a readable body, left pending
    if it fails with a [null] or [undefined] body.  Cookies, location,
    build mode and options matter only through the call they select. *)
Theorem X2_settlement_follows_the_answer
    DEV transport (opts : options) jar href :
  let fo := spread defaultOptions opts in
  let run := dispatch DEV transport opts (page jar href) in
  promise (snd run) = settlement (transport (issued_call DEV fo)) /\
  timers (snd run) = [] /\
  match promise (snd run) with
  | Pending => exists msg, fst run = Throw (ThrownTypeError msg)
  | _ => fst run = Normal tt
  end.
Proof.
  intros fo run. split; [apply dispatch_promise|].
  unfold run. rewrite dispatch_page. fold fo.
  destruct (transport (issued_call DEV fo)) as [r|err] eqn:Ht.
  - rewrite (callFetch_responds _ _ _ _ _ Ht). split; reflexivity.
  - rewrite (callFetch_fails _ _ _ _ _ Ht).
    destruct (body_readable err) eqn:Hbody.
    + rewrite (on_error_readable _ _ _ Hbody).
      destruct (is_unauthorized err), (Js.truthy (prop fo "showErrorDialog"));
        split; reflexivity.
    + destruct (on_error_unreadable fo err
                  (log (EvCall (issued_call DEV fo)) (page jar href)) Hbody)
        as [msg ->].
      split; [reflexivity|]. exists msg. reflexivity.
Qed.

(** X3.  A response is never inspected: whatever its status, status text
    and body (an envelope with an error code included), the promise is
    fulfilled with the body, the cookies and the location are as before
    and no dialog is opened. *)
Theorem X3_response_is_passed_through_uninspected
    DEV transport (opts : options) jar href r :
  let fo := spread defaultOptions opts in
  let w' := snd (dispatch DEV transport opts (page jar href)) in
  transport (issued_call DEV fo) = Responds r ->
  promise w' = Fulfilled (data r) /\
  cookies w' = jar /\
  location_href w' = href /\
  trace w' = [EvCall (issued_call DEV fo); EvResolve (data r)].
Proof.
  intros fo w' H.
  destruct (dispatch_responds DEV transport opts jar href r H)
    as (_ & Hp & Hc & Hl & Ht).
  repeat split; assumption.
Qed.

Lemma X3_response_is_passed_through_uninspected_witness :
  let r := {| data := Js.Obj [("code", Js.Num 500);
                              ("message", Js.Str "failed")];
              status := 401; statusText := "Unauthorized" |} in
  let w' := snd (dispatch true (always (Responds r))
                   (fetchDemoList_options Js.Null) (page session_jar "/")) in
  promise w' = Fulfilled (data r) /\
  cookies w' = session_jar /\
  location_href w' = "/" /\
  trace w' = [EvCall (CallGet "/apiMockup/demo/list.json");
              EvResolve (data r)].
Proof.
  intros r w'.
  exact (X3_response_is_passed_through_uninspected true (always (Responds r))
           (fetchDemoList_options Js.Null) session_jar "/" r eq_refl).
Defined.

(** X4.  In a production build, or when the merged [mock] is falsy, or
    when the merged fixture path is the empty string, the one call of a
    dispatch is [httpClient.request] with the merged options object
    itself: the caller's properties, and for every property the caller
    left out the wrapper's default, so that the config carries
    [timeout: 0] unless the caller gives a timeout and always carries
    the wrapper's own keys [mock], [jsonMockup], [delay] and
    [showErrorDialog]. *)
Theorem X4_live_call_hands_over_the_merged_options
    DEV transport (opts : options) jar href :
  let fo := spread defaultOptions opts in
  let w' := snd (dispatch DEV transport opts (page jar href)) in
  DEV = false \/ Js.truthy (prop fo "mock") = false
    \/ prop fo "jsonMockup" = Js.Str "" ->
  filter is_call (trace w') = [EvCall (CallRequest fo)] /\
  (forall k, fo !! k = match opts !! k with
                       | Some v => Some v
                       | None => defaultOptions !! k
                       end) /\
  prop fo "timeout" = match opts !! "timeout" with
                      | Some v => v
                      | None => Js.Num 0
                      end /\
  is_Some (fo !! "mock") /\ is_Some (fo !! "jsonMockup") /\
  is_Some (fo !! "delay") /\ is_Some (fo !! "showErrorDialog").
Proof.
  intros fo w' H.
  assert (Hk : forall k, fo !! k = match opts !! k with
                                   | Some v => Some v
                                   | None => defaultOptions !! k
                                   end).
  { intros k. unfold fo, spread. rewrite lookup_union.
    destruct (opts !! k), (defaultOptions !! k); reflexivity. }
  assert (Hlive : shouldUseMockup DEV fo = false).
  { rewrite shouldUseMockup_spec.
    destruct H as [-> | [-> | ->]]; [reflexivity | | ].
    - rewrite andb_false_r. reflexivity.
    - simpl. rewrite andb_false_r. reflexivity. }
  split.
  { unfold w'. rewrite dispatch_calls. fold fo. unfold issued_call.
    rewrite Hlive. reflexivity. }
  split; [exact Hk|]. split.
  { unfold prop. rewrite Hk. destruct (opts !! "timeout"); reflexivity. }
  repeat split; rewrite Hk.
  - destruct (opts !! "mock"); eexists; reflexivity.
  - destruct (opts !! "jsonMockup"); eexists; reflexivity.
  - destruct (opts !! "delay"); eexists; reflexivity.
  - destruct (opts !! "showErrorDialog"); eexists; reflexivity.
Qed.

Lemma X4_live_call_hands_over_the_merged_options_witness :
  let opts : options :=
    {[ "url" := Js.Str "/api/demo/list";
       "jsonMockup" := Js.Str "/apiMockup/demo/list.json";
       "mock" := Js.Undefined ]} in
  filter is_call
    (trace (snd (dispatch true fixture_network opts (page session_jar "/"))))
  = [EvCall (CallRequest (spread defaultOptions opts))] /\
  prop (spread defaultOptions opts) "timeout" = Js.Num 0.
Proof.
  intros opts.
  pose proof (X4_live_call_hands_over_the_merged_options true fixture_network
                opts session_jar "/" (or_intror (or_introl eq_refl))) as H.
  split; [exact (proj1 H) | exact (proj1 (proj2 (proj2 H)))].
Defined.

(** X5.  The demo services.  In a development build both are served from
    their fixture by a plain [get]: the params, the url and the [POST]
    method play no part.  In a production build [fetchDemoList] requests
    [/api/demo/list] and [fetchDemoCreate] requests [/api/demo/create]
    with method [POST]; both carry their argument under [params], the
    config has no [data] property, and both are scheduled with the
    duration [3000]. *)
Theorem X5_demo_services_calls transport params jar href :
  let list_fo := spread defaultOptions (fetchDemoList_options params) in
  let create_fo := spread defaultOptions (fetchDemoCreate_options params) in
  filter is_call (trace (snd (fetchDemoList true transport params (page jar href))))
    = [EvCall (CallGet "/apiMockup/demo/list.json")] /\
  filter is_call (trace (snd (fetchDemoCreate true transport params (page jar href))))
    = [EvCall (CallGet "/apiMockup/demo/create.json")] /\
  filter is_call (trace (snd (fetchDemoList false transport params (page jar href))))
    = [EvCall (CallRequest list_fo)] /\
  filter is_call (trace (snd (fetchDemoCreate false transport params (page jar href))))
    = [EvCall (CallRequest create_fo)] /\
  (list_fo !! "url" = Some (Js.Str "/api/demo/list") /\
   list_fo !! "method" = None /\
   list_fo !! "params" = Some params /\
   list_fo !! "data" = None) /\
  (create_fo !! "url" = Some (Js.Str "/api/demo/create") /\
   create_fo !! "method" = Some (Js.Str "POST") /\
   create_fo !! "params" = Some params /\
   create_fo !! "data" = None) /\
  delay_ms list_fo = Js.Num 3000 /\
  delay_ms create_fo = Js.Num 3000.
Proof.
  intros list_fo create_fo. unfold fetchDemoList, fetchDemoCreate.
  rewrite !dispatch_calls. repeat split.
Qed.

(** ** [createFetcher]: the catch block *)

(** X6.  A thrown value that is not an axios error is rejected with the
    title ['Error'] and the localized fallback message, whatever the
    value is (a message of its own is not used); the cookies and the
    location are untouched and the dialog follows [showErrorDialog]. *)
Theorem X6_other_errors_get_the_fallback_strings
    DEV transport (opts : options) jar href err :
  let fo := spread defaultOptions opts in
  let w' := snd (dispatch DEV transport opts (page jar href)) in
  let fallback := {| title := "Error";
                     error_message := Js.Str fallback_message |} in
  transport (issued_call DEV fo) = Fails err ->
  isAxiosError err = None ->
  promise w' = Rejected fallback /\
  cookies w' = jar /\
  location_href w' = href /\
  filter is_open_modal (trace w') =
    if Js.truthy (prop fo "showErrorDialog")
    then [EvOpenContextModal (error_dialog fallback)] else [].
Proof.
  intros fo w' fallback H Hax.
  assert (Hbody : body_readable err = true)
    by (unfold body_readable; rewrite Hax; reflexivity).
  assert (Herr : spec_error err = fallback).
  { unfold spec_error, spec_title, spec_message, status_text, body_message,
      transport_message. rewrite Hax. reflexivity. }
  assert (H401 : is_unauthorized err = false).
  { unfold is_unauthorized, http_status. rewrite Hax. reflexivity. }
  destruct (dispatch_fails_readable DEV transport opts jar href err H Hbody)
    as (_ & Hp & Hc & Hl & Ht).
  fold fo in Ht. rewrite H401 in Hc, Hl, Ht. rewrite Herr in Hp, Ht.
  repeat split; try assumption.
  unfold w'. rewrite Ht.
  destruct (Js.truthy (prop fo "showErrorDialog")); reflexivity.
Qed.

Lemma X6_other_errors_get_the_fallback_strings_witness :
  promise (snd (dispatch false
                  (always (Fails (ThrownOther
                                    (Js.Obj [("message", Js.Str "boom")]))))
                  live_options (page session_jar "/")))
  = Rejected {| title := "Error";
                error_message := Js.Str fallback_message |}.
Proof.
  exact (proj1 (X6_other_errors_get_the_fallback_strings false
                  (always (Fails (ThrownOther
                                    (Js.Obj [("message", Js.Str "boom")]))))
                  live_options session_jar "/"
                  (ThrownOther (Js.Obj [("message", Js.Str "boom")]))
                  eq_refl eq_refl)).
Defined.

(** X7.  An axios error without a response (no answer reached the
    client: network error, timeout) is rejected with the title ['Error']
    and the error's own message, also when that message is empty; it is
    never taken for a 401, so the session is kept. *)
Theorem X7_error_without_response_keeps_its_message
    DEV transport (opts : options) jar href msg :
  let fo := spread defaultOptions opts in
  let w' := snd (dispatch DEV transport opts (page jar href)) in
  transport (issued_call DEV fo)
    = Fails (ThrownAxios {| message := msg; response := None |}) ->
  promise w' = Rejected {| title := "Error"; error_message := Js.Str msg |} /\
  cookies w' = jar /\
  location_href w' = href.
Proof.
  intros fo w' H.
  destruct (dispatch_fails_readable DEV transport opts jar href _ H eq_refl)
    as (_ & Hp & Hc & Hl & _).
  repeat split; assumption.
Qed.

Lemma X7_error_without_response_keeps_its_message_witness :
  let w' := snd (dispatch true (always (Fails network_error))
                   (fetchDemoList_options Js.Null) (page session_jar "/")) in
  promise w' = Rejected {| title := "Error";
                           error_message := Js.Str "Network Error" |} /\
  cookies w' = session_jar /\
  location_href w' = "/".
Proof.
  exact (X7_error_without_response_keeps_its_message true
           (always (Fails network_error)) (fetchDemoList_options Js.Null)
           session_jar "/" "Network Error" eq_refl).
Defined.

(** X8.  When the failed call has a response whose parsed body is
    [null] or [undefined], the catch block throws a TypeError at the read
    of [.message] before it has done anything: the promise stays
    pending, no dialog is opened, and the cookies and the location are
    kept, for every status (401 included), build mode and options. *)
Theorem X8_unreadable_body_leaves_the_promise_pending
    DEV transport (opts : options) jar href e r :
  let fo := spread defaultOptions opts in
  let run := dispatch DEV transport opts (page jar href) in
  transport (issued_call DEV fo) = Fails (ThrownAxios e) ->
  response e = Some r ->
  Js.nullish (data r) = true ->
  (exists msg, fst run = Throw (ThrownTypeError msg)) /\
  promise (snd run) = Pending /\
  cookies (snd run) = jar /\
  location_href (snd run) = href /\
  trace (snd run) = [EvCall (issued_call DEV fo)].
Proof.
  intros fo run H Hr Hnull.
  apply (dispatch_fails_unreadable DEV transport opts jar href _ H).
  unfold body_readable. simpl. rewrite Hr, Hnull. reflexivity.
Qed.

Lemma X8_unreadable_body_leaves_the_promise_pending_witness :
  let run := dispatch true
               (always (Fails (http_failure 401 "Unauthorized" Js.Undefined)))
               (fetchDemoCreate_options Js.Null) (page two_cookie_jar "/form") in
  promise (snd run) = Pending /\
  cookies (snd run) = two_cookie_jar /\
  location_href (snd run) = "/form".
Proof.
  intros run.
  pose proof (X8_unreadable_body_leaves_the_promise_pending true
                (always (Fails (http_failure 401 "Unauthorized" Js.Undefined)))
                (fetchDemoCreate_options Js.Null) two_cookie_jar "/form"
                _ _ eq_refl eq_refl eq_refl) as (_ & Hp & Hc & Hl & _).
  repeat split; assumption.
Defined.

(** X9.  For a failed call whose error body can be read, the session is
    handled by the status alone: on 401 the cookie ['SID'] is removed and
    the location becomes ['/login'], before any dialog and before the
    rejection; on every other status, and without a response, cookies
    and location are as they were.  Only ['SID'] is ever removed, and
    [showErrorDialog] plays no part. *)
Theorem X9_session_is_cleared_exactly_on_401
    DEV transport (opts : options) jar href err :
  let fo := spread defaultOptions opts in
  let w' := snd (dispatch DEV transport opts (page jar href)) in
  transport (issued_call DEV fo) = Fails err ->
  body_readable err = true ->
  (is_unauthorized err = true <-> http_status err = Some 401) /\
  cookies w' = (if is_unauthorized err then delete "SID" jar else jar) /\
  location_href w' = (if is_unauthorized err then "/login" else href) /\
  (forall name, name <> "SID" -> cookies w' !! name = jar !! name) /\
  (exists rest,
     trace w' =
     EvCall (issued_call DEV fo)
     :: (if is_unauthorized err
         then [EvRemoveCookie "SID"; EvNavigate "/login"] else [])
     ++ rest /\
     filter is_remove_cookie rest = [] /\ filter is_navigate rest = []).
Proof.
  intros fo w' H Hbody.
  destruct (dispatch_fails_readable DEV transport opts jar href err H Hbody)
    as (_ & _ & Hc & Hl & Ht).
  fold fo in Ht. fold w' in Hc, Hl, Ht.
  split; [apply is_unauthorized_401|].
  split; [exact Hc|]. split; [exact Hl|]. split.
  - intros name Hne. rewrite Hc.
    destruct (is_unauthorized err); [|reflexivity].
    apply lookup_delete_ne. congruence.
  - eexists. split; [exact Ht|].
    destruct (Js.truthy (prop fo "showErrorDialog")); split; reflexivity.
Qed.

Lemma X9_session_is_cleared_exactly_on_401_witness :
  let w' := snd (dispatch false
                   (always (Fails (http_failure 401 "Unauthorized"
                                     (Js.Obj [("message", Js.Str "expired")]))))
                   silent_live_options (page two_cookie_jar "/query")) in
  cookies w' !! "SID" = None /\
  cookies w' !! "lang" = Some "th" /\
  location_href w' = "/login".
Proof.
  intros w'.
  pose proof (X9_session_is_cleared_exactly_on_401 false
                (always (Fails (http_failure 401 "Unauthorized"
                                  (Js.Obj [("message", Js.Str "expired")]))))
                silent_live_options two_cookie_jar "/query" _
                eq_refl eq_refl) as (_ & Hc & Hl & Hother & _).
  fold w' in Hc, Hl, Hother. split; [|split].
  - rewrite Hc. reflexivity.
  - rewrite Hother; [reflexivity | discriminate].
  - exact Hl.
Defined.

(** X10.  For a failed call whose error body can be read, the dialog
    follows the truthiness of the merged [showErrorDialog] (a property
    present as [undefined], [null], [false], [0] or [''] suppresses it):
    when truthy, exactly one context modal is opened, under the key
    ['applicationError'] that the modals provider registers for
    [AppErrorModal], without close button, centered, with the title and
    message of the rejection; in both cases the rejection is the last
    thing that happens. *)
Theorem X10_dialog_follows_showErrorDialog
    DEV transport (opts : options) jar href err :
  let fo := spread defaultOptions opts in
  let w' := snd (dispatch DEV transport opts (page jar href)) in
  let dialog := {| modal := "applicationError";
                   withCloseButton := false;
                   centered := true;
                   innerProps_title := spec_title err;
                   innerProps_message := spec_message err |} in
  transport (issued_call DEV fo) = Fails err ->
  body_readable err = true ->
  filter is_open_modal (trace w') =
    (if Js.truthy (prop fo "showErrorDialog")
     then [EvOpenContextModal dialog] else []) /\
  registered_modals !! modal dialog = Some "AppErrorModal" /\
  last (trace w') = Some (EvReject (spec_error err)) /\
  promise w' = Rejected (spec_error err).
Proof.
  intros fo w' dialog H Hbody.
  destruct (dispatch_fails_readable DEV transport opts jar href err H Hbody)
    as (_ & Hp & _ & _ & Ht).
  fold fo in Ht. fold w' in Hp, Ht. rewrite Ht.
  split; [|split; [reflexivity|split; [|exact Hp]]].
  - destruct (is_unauthorized err), (Js.truthy (prop fo "showErrorDialog"));
      reflexivity.
  - destruct (is_unauthorized err), (Js.truthy (prop fo "showErrorDialog"));
      reflexivity.
Qed.

Lemma X10_dialog_follows_showErrorDialog_witness :
  let opts : options :=
    {[ "url" := Js.Str "/api/demo/list"; "mock" := Js.Bool false;
       "showErrorDialog" := Js.Undefined ]} in
  let w' := snd (dispatch false
                   (always (Fails (boom_failure "Internal Server Error"
                                     "Request failed with status code 500")))
                   opts (page session_jar "/")) in
  filter is_open_modal (trace w') = [] /\
  promise w' = Rejected {| title := "Internal Server Error";
                           error_message := Js.Str "boom" |}.
Proof.
  intros opts w'.
  pose proof (X10_dialog_follows_showErrorDialog false
                (always (Fails (boom_failure "Internal Server Error"
                                  "Request failed with status code 500")))
                opts session_jar "/" _ eq_refl eq_refl) as (Hd & _ & _ & Hp).
  split; [exact Hd | exact Hp].
Defined.

(** X11.  For an error response with a readable body the title is the
    response's status text as it is (the empty string included: the
    fallback title is not used once there is a response), and the
    message is the body's [message] property when that is truthy, of
    whatever type, and the axios error's own message otherwise: when the
    body is not an object (an HTML page, a number), has no [message], or
    has an empty, zero, [false] or [null] one. *)
Theorem X11_title_and_message_of_an_error_response
    DEV transport (opts : options) jar href msg body code text m :
  let fo := spread defaultOptions opts in
  let w' := snd (dispatch DEV transport opts (page jar href)) in
  transport (issued_call DEV fo)
    = Fails (ThrownAxios
               {| message := msg;
                  response := Some {| data := body; status := code;
                                      statusText := text |} |}) ->
  Js.get body "message" = Some m ->
  promise w' =
  Rejected {| title := text;
              error_message := if Js.truthy m then m else Js.Str msg |}.
Proof.
  intros fo w' H Hm.
  assert (Hbody : Js.nullish body = false)
    by (destruct body; simpl in Hm; try discriminate; reflexivity).
  unfold w'. rewrite dispatch_promise. fold fo. rewrite H.
  unfold settlement, body_readable. simpl. rewrite Hbody. simpl.
  unfold spec_error, spec_title, spec_message, body_message, status_text,
    transport_message. simpl. rewrite Hm. simpl.
  destruct (Js.truthy m); reflexivity.
Qed.

Lemma X11_title_and_message_of_an_error_response_witness :
  promise (snd (dispatch false
                  (always (Fails (ThrownAxios
                     {| message := "Request failed with status code 502";
                        response := Some {| data := Js.Str "<html>Bad Gateway</html>";
                                            status := 502;
                                            statusText := "" |} |})))
                  live_options (page session_jar "/")))
  = Rejected {| title := "";
                error_message := Js.Str "Request failed with status code 502" |}.
Proof.
  exact (X11_title_and_message_of_an_error_response false _ live_options
           session_jar "/" "Request failed with status code 502"
           (Js.Str "<html>Bad Gateway</html>") 502 "" Js.Undefined
           eq_refl eq_refl).
Defined.

(** ** The transport client and the query client *)

(** X12.  The [Authorization] header of the shared client is computed
    once, from the cookie jar at construction: ['Bearer <SID>'] when the
    cookie exists then, and the literal ['Bearer undefined'] when it
    does not.  A fixture request sent later carries that header whatever
    the jar has become, together with the timeout 60000 and the
    configured base url. *)
Theorem X12_authorization_header_is_fixed_at_construction
    VITE_API_URL (jar0 : gmap string string) url :
  let request := instance_get (httpClient VITE_API_URL jar0) url in
  sent_headers request =
    [("Authorization",
      match jar0 !! "SID" with
      | Some token => "Bearer " +:+ token
      | None => "Bearer undefined"
      end)] /\
  sent_timeout request = 60000 /\
  sent_baseURL request = VITE_API_URL.
Proof.
  intros request. repeat split. unfold request. simpl. unfold getCookie.
  destruct (jar0 !! "SID"); reflexivity.
Qed.

(** X13.  [getQueryClient] creates the client at most once.  The first
    call on an unset variable creates a client with [staleTime] 60000,
    [retry] off and [refetchOnWindowFocus] off and an empty cache, and
    stores it; every call on a set variable returns the stored client
    with the cache it has and changes nothing.  So the client whose
    cache [onSuccess] of [useCreateDemo] invalidates is the client a
    later [getQueryClient()] returns. *)
Theorem X13_getQueryClient_is_a_lazy_singleton
    (browserQueryClient : option QueryClient) :
  let first := getQueryClient browserQueryClient in
  snd first = Some (fst first) /\
  getQueryClient (snd first) = first /\
  fst first = default new_QueryClient browserQueryClient /\
  (staleTime new_QueryClient = 60000 /\ retry new_QueryClient = false /\
   refetchOnWindowFocus new_QueryClient = false /\
   queryCache new_QueryClient = []) /\
  let later := fst (getQueryClient
                      (useCreateDemo_onSuccess_shared browserQueryClient)) in
  queryCache later = useCreateDemo_onSuccess (queryCache (fst first)) /\
  staleTime later = staleTime (fst first) /\
  retry later = retry (fst first).
Proof.
  destruct browserQueryClient as [client|]; repeat split.
Qed.

(** ** The counter store *)

Lemma round_double_exact z :
  Z.abs z <= Counter.two53 -> Counter.round_double z = z.
Proof.
  intros H. unfold Counter.round_double.
  destruct (Z.abs z <=? Counter.two53) eqn:E; [reflexivity|].
  apply Z.leb_gt in E. lia.
Qed.

Lemma act_exact c a :
  Z.abs c + 1 <= Counter.two53 ->
  Counter.count (Counter.act {| Counter.count := c |} a)
  = match a with
    | Counter.Increase => c + 1
    | Counter.Decrease => c - 1
    | Counter.Reset => 0
    end.
Proof.
  intros H. destruct a; simpl; [| |reflexivity];
    unfold Counter.add, Counter.sub; apply round_double_exact; lia.
Qed.

(** X14.  Within the safe integers the counter counts exactly: from a
    count [c], a session of clicks whose length added to [|c|] does not
    exceed 2^53 shows the exact tally (plus one per Increase, minus one
    per Decrease, zero at each Reset); no rounding occurs. *)
Theorem X14_counter_is_exact_within_safe_integers
    (actions : list Counter.action) (c : Z) :
  Z.abs c + Z.of_nat (List.length actions) <= Counter.two53 ->
  Counter.count (Counter.clicks actions {| Counter.count := c |})
  = Counter.tally actions c.
Proof.
  revert c. induction actions as [|a rest IH]; intros c H; [reflexivity|].
  simpl List.length in H. unfold Counter.clicks, Counter.tally in *. simpl.
  assert (Hstep : Z.abs c + 1 <= Counter.two53) by lia.
  pose proof (act_exact c a Hstep) as Ha.
  destruct (Counter.act {| Counter.count := c |} a) as [c'] eqn:Hc'.
  simpl in Ha. subst c'.
  apply IH. destruct a; lia.
Qed.

Lemma X14_counter_is_exact_within_safe_integers_witness :
  Counter.count
    (Counter.clicks
       [Counter.Increase; Counter.Increase; Counter.Reset;
        Counter.Decrease; Counter.Decrease; Counter.Increase]
       Counter.initial)
  = -1.
Proof.
  refine (X14_counter_is_exact_within_safe_integers
            [Counter.Increase; Counter.Increase; Counter.Reset;
             Counter.Decrease; Counter.Decrease; Counter.Increase] 0 _).
  vm_compute. discriminate.
Defined.

Lemma clicks_snoc actions a state :
  Counter.clicks (actions ++ [a]) state
  = Counter.act (Counter.clicks actions state) a.
Proof. unfold Counter.clicks. rewrite fold_left_app. reflexivity. Qed.

Lemma repeat_snoc {A} (x : A) n : repeat x (S n) = (repeat x n ++ [x])%list.
Proof.
  induction n as [|n IH]; [reflexivity|].
  change (repeat x (S (S n))) with (x :: repeat x (S n)).
  rewrite IH at 1. reflexivity.
Qed.

(** X15.  The bound of X14 is sharp and the counter saturates: after [n]
    clicks of Increase from the initial state the count is [n] up to
    2^53 and stays at 2^53 from then on ([2^53 + 1] rounds back to
    [2^53]); symmetrically Decrease stops at [-2^53]. *)
Theorem X15_counter_saturates_at_two53 (n : nat) :
  Counter.count (Counter.clicks (repeat Counter.Increase n) Counter.initial)
  = Z.min (Z.of_nat n) Counter.two53 /\
  Counter.count (Counter.clicks (repeat Counter.Decrease n) Counter.initial)
  = Z.max (- Z.of_nat n) (- Counter.two53).
Proof.
  induction n as [|n [IHi IHd]]; [split; reflexivity|].
  rewrite !repeat_snoc, !clicks_snoc. split.
  - destruct (Counter.clicks (repeat Counter.Increase n) Counter.initial)
      as [c]. simpl in *. subst c. unfold Counter.add.
    destruct (Z_lt_le_dec (Z.of_nat n) Counter.two53) as [Hlt|Hge].
    + rewrite Z.min_l by lia. rewrite round_double_exact by lia.
      rewrite Z.min_l by lia. lia.
    + rewrite Z.min_r by lia. rewrite Z.min_r by lia.
      vm_compute. reflexivity.
  - destruct (Counter.clicks (repeat Counter.Decrease n) Counter.initial)
      as [c]. simpl in *. subst c. unfold Counter.sub.
    destruct (Z_lt_le_dec (Z.of_nat n) Counter.two53) as [Hlt|Hge].
    + rewrite Z.max_l by lia. rewrite round_double_exact by lia.
      rewrite Z.max_l by lia. lia.
    + rewrite Z.max_r by lia. rewrite Z.max_r by lia.
      vm_compute. reflexivity.
Qed.

(** ** The mutation hook *)

(** X16.  A mutation whose call fails invalidates nothing: whether the
    dispatch is rejected or never settles, [onSuccess] does not run and
    the cache is exactly as before, the reads of the demo list
    included. *)
Theorem X16_failed_mutation_leaves_the_cache
    DEV transport body jar href (cache : list CacheEntry) err :
  let fo := spread defaultOptions (fetchDemoCreate_options body) in
  let after := useCreateDemo_mutate DEV transport body (page jar href) cache in
  transport (issued_call DEV fo) = Fails err ->
  snd after = cache /\
  promise (fst after) =
    (if body_readable err then Rejected (spec_error err) else Pending).
Proof.
  intros fo after H.
  assert (Hp : promise (snd (fetchDemoCreate DEV transport body (page jar href)))
               = if body_readable err then Rejected (spec_error err)
                 else Pending).
  { unfold fetchDemoCreate. rewrite dispatch_promise. fold fo. rewrite H.
    reflexivity. }
  split.
  - apply useCreateDemo_mutate_failure. intros v. rewrite Hp.
    destruct (body_readable err); discriminate.
  - unfold after. rewrite useCreateDemo_mutate_world. exact Hp.
Qed.

Lemma X16_failed_mutation_leaves_the_cache_witness :
  snd (useCreateDemo_mutate false (always (Fails network_error))
         (Js.Obj [("id", Js.Num 0); ("name", Js.Str "a")])
         (page session_jar "/form") sample_cache)
  = sample_cache.
Proof.
  exact (proj1 (X16_failed_mutation_leaves_the_cache false
                  (always (Fails network_error))
                  (Js.Obj [("id", Js.Num 0); ("name", Js.Str "a")])
                  session_jar "/form" sample_cache network_error eq_refl)).
Defined.
